(** * codeaid: the prompt registry, the request composer and the command line

    A shallow embedding of [codeaid.py].  Python [str] values are modelled as
    [string], holding the UTF-8 encoding of the text; [dict] literals whose
    iteration order is observed are association lists in insertion order;
    the process environment is a finite map.  Code with effects (printing,
    logging, [sys.exit], exceptions, the file system, the remote completion
    endpoint) runs in a small state-and-exception monad over a [World]. *)

From Stdlib Require Import String Ascii List ZArith Bool Lia.
From stdpp Require Import base option gmap strings.
Import ListNotations.

Local Open Scope string_scope.
Local Open Scope list_scope.

(** ** Text *)

Module Text.

Definition bytes (codes : list nat) : string :=
  fold_right (fun n s => String (ascii_of_nat n) s) EmptyString codes.

Definition nl : string := bytes [10].
Definition tab : string := bytes [9].

(** [sep.join(items)] *)
Definition join (sep : string) (items : list string) : string :=
  String.concat sep items.

Fixpoint interleave (new s : string) : string :=
  match s with
  | EmptyString => new
  | String c s' => new +:+ String c (interleave new s')
  end.

(** The scan of [str.replace] for a non-empty [old]: [skip] counts the
    characters of a match that are still to be passed over. *)
Fixpoint replace_scan (old new : string) (skip : nat) (s : string) : string :=
  match s with
  | EmptyString => EmptyString
  | String c s' =>
      match skip with
      | S k => replace_scan old new k s'
      | O =>
          if String.prefix old s
          then new +:+ replace_scan old new (String.length old - 1) s'
          else String c (replace_scan old new 0 s')
      end
  end.

(** [s.replace(old, new)]: every non-overlapping occurrence of [old], from
    the left, becomes [new]; an empty [old] matches between characters. *)
Definition replace (s old new : string) : string :=
  if (old =? "")%string then interleave new s else replace_scan old new 0 s.

(** [needle in s] *)
Fixpoint contains (needle s : string) : bool :=
  String.prefix needle s ||
  match s with
  | EmptyString => false
  | String _ s' => contains needle s'
  end.

(** Number of (possibly overlapping) positions of [s] where [needle] starts. *)
Fixpoint occurrences (needle s : string) : nat :=
  (if String.prefix needle s then 1 else 0) +
  match s with
  | EmptyString => 0
  | String _ s' => occurrences needle s'
  end.

(** [s.endswith(suffix)] *)
Definition endswith (s suffix : string) : bool :=
  let n := String.length s in
  let k := String.length suffix in
  (k <=? n)%nat && (String.substring (n - k) k s =? suffix)%string.

Fixpoint rev_string (s : string) : string :=
  match s with
  | EmptyString => EmptyString
  | String c s' => rev_string s' +:+ String c EmptyString
  end.

(** The characters [str.isspace] accepts, in UTF-8: U+0009..U+000D,
    U+001C..U+0020, U+0085, U+00A0, U+1680, U+2000..U+200A, U+2028, U+2029,
    U+202F, U+205F and U+3000. *)
Definition whitespace : list string :=
  map bytes
    [ [9]; [10]; [11]; [12]; [13]; [28]; [29]; [30]; [31]; [32];
      [194; 133]; [194; 160]; [225; 154; 128];
      [226; 128; 128]; [226; 128; 129]; [226; 128; 130]; [226; 128; 131];
      [226; 128; 132]; [226; 128; 133]; [226; 128; 134]; [226; 128; 135];
      [226; 128; 136]; [226; 128; 137]; [226; 128; 138];
      [226; 128; 168]; [226; 128; 169]; [226; 128; 175];
      [226; 129; 159]; [227; 128; 128] ].

Definition drop (n : nat) (s : string) : string :=
  String.substring n (String.length s - n) s.

Fixpoint lstrip_with (ws : list string) (fuel : nat) (s : string) : string :=
  match fuel with
  | O => s
  | S fuel' =>
      match find (fun w => String.prefix w s) ws with
      | Some w => lstrip_with ws fuel' (drop (String.length w) s)
      | None => s
      end
  end.

Definition lstrip (s : string) : string :=
  lstrip_with whitespace (String.length s) s.

Definition rstrip (s : string) : string :=
  rev_string
    (lstrip_with (map rev_string whitespace) (String.length s) (rev_string s)).

(** [s.strip()] *)
Definition strip (s : string) : string := rstrip (lstrip s).

End Text.

(** ** The prompt registry: class [PromptManager] *)

Module Prompts.

Definition summarize : string :=
"Act as a programming assistant. After examining the provided 
               source code, identify the language in which it is written, then 
               give a concise, one-paragraph summary of its functionality. 
               Include any notable or interesting elements a programmer would 
               find useful or appreciate, but keep your explanation streamlined 
               and to the point.
               ".

Definition defects : string :=
"Act as an expert software debugger. After examining the 
                provided source code, briefly summarize any possible defects 
                you find, focusing strictly on potential errors without including 
                unrelated discussion.
                ".

Definition security : string :=
"Act as a software security expert. Examine the provided source 
                code, identify any potential vulnerabilities, and offer concise 
                recommendations to improve its security.
                ".

Definition optimize : string :=
"Act as a software optimization expert. Evaluate the provided 
                source code and recommend performance improvements. Include any 
                best practices, plus language-specific techniques that can 
                significantly enhance efficiency.
                ".

Definition refactor : string :=
"Act as a software refactoring expert. Analyze the provided 
                source code and propose improvements to maintainability, 
                readability, modularization, naming, and decomposition. Offer 
                reorganizations, style enhancements, and language-specific 
                techniques (e.g., creating classes) that clarify and structure 
                the code more effectively.
                ".

Definition document : string :=
"Act as a software documentation expert. After examining the 
                provided source code, generate comprehensive documentation, 
                inline comments, or markdown—summarizing the entire file and 
                each module in a clear, concise manner.
                ".

Definition complexity : string :=
"Act as an expert software engineer dedicated to reducing 
                complexity.  Review the provided source code, evaluate the 
                complexity of its functions and modules, and highlight any 
                excessively tangled or overly complex areas that warrant 
                refactoring. Focus on modularization, maintainability, and 
                readability enhancements.
                ".

Definition naming : string :=
"Act as an expert software engineer prioritizing readability. 
                Examine the source code’s variable and function naming, 
                highlighting any non-descriptive names and recommending more 
                descriptive alternatives. List only necessary changes, keeping 
                the response concise.
                ".

Definition translate : string :=
"Act as a software translation expert. Review the provided 
                source code and rewrite it in XXX language, preserving the 
                original functionality and logic.
                ".

Definition cleanup : string :=
"Your role is a software cleanup specialist.  Your goal is 
                to take the software provided in the context below and convert 
                it into PEP-8 style.  Maintain all functionality, just refine 
                into PEP-8.
                ".

Definition todo : string :=
"You are an agile story writing expert.  Your goal is to 
                find each TODO in the source code and write an agile story for 
                it.  Please keep the stories focused on the task at hand 
                (using the TODO text and surrounding code as a guide).
                ".

Definition ut : string :=
"You are a test development expert.  Your goal is to analyze 
                the source code and develop unit-tests using the unittest module 
                to validate the code for quality improvement for future changes.
                ".

End Prompts.

(** A [dict] with string keys, in insertion order. *)
Definition dict (V : Type) : Type := list (string * V).

(** [d.get(key)] *)
Fixpoint dict_get {V : Type} (d : dict V) (key : string) : option V :=
  match d with
  | [] => None
  | (k, v) :: d' => if (k =? key)%string then Some v else dict_get d' key
  end.

(** [d.keys()] *)
Definition dict_keys {V : Type} (d : dict V) : list string := map fst d.

Record PromptManager : Type := {
  prompts : dict string;
  _goals_list : string
}.

Definition _initialize_prompts : dict string :=
  [ ("summarize", Prompts.summarize);
    ("defects", Prompts.defects);
    ("security", Prompts.security);
    ("optimize", Prompts.optimize);
    ("refactor", Prompts.refactor);
    ("document", Prompts.document);
    ("complexity", Prompts.complexity);
    ("naming", Prompts.naming);
    ("translate", Prompts.translate);
    ("cleanup", Prompts.cleanup);
    ("todo", Prompts.todo);
    ("ut", Prompts.ut) ].

(** [PromptManager.__init__] *)
Definition PromptManager_init : PromptManager :=
  let table := _initialize_prompts in
  {| prompts := table;
     _goals_list := Text.join ", " (dict_keys table) |}.

Definition get_prompt_by_goal (self : PromptManager) (goal : string)
  : option string :=
  dict_get (prompts self) goal.

Definition goals (self : PromptManager) : string := _goals_list self.

(** The goal names the specification lists. *)
Definition goal_names : list string :=
  [ "summarize"; "defects"; "security"; "optimize"; "refactor"; "document";
    "complexity"; "naming"; "translate"; "cleanup"; "todo"; "ut" ].

(** ** The process and its surroundings *)

(** The exception classes the program can meet.  [OSError] stands for the
    operating-system errors without a class of their own here, [OpenAIError]
    for whatever the client library raises. *)
Inductive exn : Type :=
  | FileNotFoundError
  | PermissionError
  | IsADirectoryError
  | NotADirectoryError
  | OSError
  | UnicodeDecodeError
  | TypeError
  | AttributeError
  | OpenAIError.

Definition exn_eqb (a b : exn) : bool :=
  match a, b with
  | FileNotFoundError, FileNotFoundError
  | PermissionError, PermissionError
  | IsADirectoryError, IsADirectoryError
  | NotADirectoryError, NotADirectoryError
  | OSError, OSError
  | UnicodeDecodeError, UnicodeDecodeError
  | TypeError, TypeError
  | AttributeError, AttributeError
  | OpenAIError, OpenAIError => true
  | _, _ => false
  end.

(** [issubclass(e, cls)]: the four file errors derive from [OSError]. *)
Definition issubclass (e cls : exn) : bool :=
  exn_eqb e cls ||
  match cls, e with
  | OSError, (FileNotFoundError | PermissionError
              | IsADirectoryError | NotADirectoryError) => true
  | _, _ => false
  end.

(** What the program reads from and writes to.
    - [environ]: [os.environ];
    - [files name]: what [open(name, "r")] followed by [read()] gives, the
      text or the exception raised;
    - [completion key message]: the [choices[0].message.content] the
      endpoint answers to a one-message chat request made with [key], or
      the exception raised on the way;
    - [stdout]: what was printed, oldest first;
    - [errlog]: the messages given to [logging.error], oldest first;
    - [sent]: the messages [execute_prompt] was called to submit, oldest
      first. *)
Record World : Type := {
  environ : gmap string string;
  files : string -> exn + string;
  completion : string -> string -> exn + option string;
  stdout : list string;
  errlog : list string;
  sent : list string
}.

Definition write_stdout (text : string) (w : World) : World :=
  {| environ := environ w; files := files w; completion := completion w;
     stdout := stdout w ++ [text]; errlog := errlog w; sent := sent w |}.

Definition write_errlog (msg : string) (w : World) : World :=
  {| environ := environ w; files := files w; completion := completion w;
     stdout := stdout w; errlog := errlog w ++ [msg]; sent := sent w |}.

Definition write_sent (message : string) (w : World) : World :=
  {| environ := environ w; files := files w; completion := completion w;
     stdout := stdout w; errlog := errlog w; sent := sent w ++ [message] |}.

(** How a piece of code ends: it returns a value, raises [SystemExit] with
    a status, or raises another exception. *)
Inductive result (A : Type) : Type :=
  | Return (a : A)
  | SystemExit (code : Z)
  | Raised (e : exn).

Arguments Return {A} a.
Arguments SystemExit {A} code.
Arguments Raised {A} e.

Definition Py (A : Type) : Type := World -> result A * World.

Definition ret {A : Type} (a : A) : Py A := fun w => (Return a, w).

Definition bind {A B : Type} (m : Py A) (k : A -> Py B) : Py B :=
  fun w =>
    match m w with
    | (Return a, w') => k a w'
    | (SystemExit code, w') => (SystemExit code, w')
    | (Raised e, w') => (Raised e, w')
    end.

Declare Scope py_scope.
Delimit Scope py_scope with py.
Notation "x <- m ;; k" := (bind m (fun x => k))
  (at level 100, m at next level, right associativity) : py_scope.
Notation "m ;;; k" := (bind m (fun _ => k))
  (at level 100, right associativity) : py_scope.
Local Open Scope py_scope.

Definition raise {A : Type} (e : exn) : Py A := fun w => (Raised e, w).

(** [sys.exit(code)] *)
Definition sys_exit {A : Type} (code : Z) : Py A :=
  fun w => (SystemExit code, w).

(** [print(text)] *)
Definition print (text : string) : Py unit :=
  fun w => (Return tt, write_stdout (text +:+ Text.nl) w).

(** [logging.error(msg)] *)
Definition logging_error (msg : string) : Py unit :=
  fun w => (Return tt, write_errlog msg w).

(** [os.environ.get(name, None)] *)
Definition os_environ_get (name : string) : Py (option string) :=
  fun w => (Return (environ w !! name), w).

(** [with open(filename, "r") as file: return file.read()] without the
    [return]. *)
Definition open_read (filename : string) : Py string :=
  fun w =>
    match files w filename with
    | inl e => (Raised e, w)
    | inr text => (Return text, w)
    end.

(** [try: body / except cls: handler].  [SystemExit] is not an [Exception]
    the handlers of this program name, so it passes through. *)
Definition try_except {A : Type} (body : Py A) (cls : exn) (handler : Py A)
  : Py A :=
  fun w =>
    match body w with
    | (Raised e, w') =>
        if issubclass e cls then handler w' else (Raised e, w')
    | other => other
    end.

(** The status the process ends with: the code of [SystemExit], 1 after an
    uncaught exception, 0 when the script runs off its end. *)
Definition exit_status {A : Type} (r : result A) : Z :=
  match r with
  | Return _ => 0
  | SystemExit code => code
  | Raised _ => 1
  end.

(** ** The completion client: class [OpenAIClient] *)

Record OpenAIClient : Type := {
  openai_key : string
}.

Definition _get_openai_key : Py string :=
  openai_key <- os_environ_get "OPENAI_KEY";;
  match openai_key with
  | None =>
      logging_error ("OPENAI_KEY is not set" +:+ Text.nl);;;
      sys_exit 1
  | Some key => ret key
  end.

(** [OpenAIClient.__init__] *)
Definition OpenAIClient_init : Py OpenAIClient :=
  key <- _get_openai_key;;
  ret {| openai_key := key |}.

Definition compose_prompt_message (self : OpenAIClient) (goal context : string)
    (prompt_manager : PromptManager) (target : option string)
  : Py (option string) :=
  match get_prompt_by_goal prompt_manager goal with
  | None =>
      logging_error
        ("Goal " +:+ goal +:+ " is not recognized." +:+ Text.nl +:+ Text.nl);;;
      ret None
  | Some prompt =>
      let prompt :=
        match target with
        | Some language =>
            if (goal =? "translate")%string
            then Text.replace prompt "XXX" language
            else prompt
        | None => prompt
        end in
      ret (Some (prompt +:+ context))
  end.

(** The request is recorded in [sent] when it is made; a [content] of
    [None] has no [strip]. *)
Definition execute_prompt (self : OpenAIClient) (message : string)
  : Py string :=
  fun w =>
    let w' := write_sent message w in
    match completion w (openai_key self) message with
    | inl e => (Raised e, w')
    | inr None => (Raised AttributeError, w')
    | inr (Some content) => (Return (Text.strip content), w')
    end.

(** ** The command line *)

Definition read_source_file (filename : string) : Py (option string) :=
  try_except
    (text <- open_read filename;; ret (Some text))
    FileNotFoundError
    (logging_error ("Source filename (" +:+ filename +:+ ") not found.");;;
     ret None).

Definition print_usage_instructions (prompt_manager : PromptManager)
  : Py unit :=
  print ("Usage is:" +:+ Text.nl +:+ Text.nl +:+ Text.tab
         +:+ "asst.py --goal <goal> --filename <filename> --target <language>");;;
  print (Text.tab +:+ Text.tab +:+ "Where goal is: ["
         +:+ goals prompt_manager +:+ " ]");;;
  print (Text.tab +:+ Text.tab
         +:+ "and <filename> is the source file to analyze, <language> is the target language for translate."
         +:+ Text.nl).

(** What [parse_arguments] returns: each option has [default=None]. *)
Record Namespace : Type := {
  goal : option string;
  filename : option string;
  target : option string
}.

Definition is_None {A : Type} (o : option A) : bool :=
  match o with
  | None => true
  | Some _ => false
  end.

(** [goal == 'translate'] for a [goal] that may be [None]. *)
Definition goal_is (o : option string) (name : string) : bool :=
  match o with
  | Some g => (g =? name)%string
  | None => false
  end.

Definition create_prompt_manager (goal filename target : option string)
  : Py PromptManager :=
  let prompt_manager := PromptManager_init in
  (if is_None goal || is_None filename
   then print_usage_instructions prompt_manager;;; sys_exit 1
   else ret tt);;;
  (if goal_is goal "translate" && is_None target
   then print_usage_instructions prompt_manager;;; sys_exit 1
   else ret tt);;;
  ret prompt_manager.

(** [if value: body], for a [value] that is a string or [None]: [None]
    and the empty string are false. *)
Definition if_truthy (value : option string) (body : string -> Py unit)
  : Py unit :=
  match value with
  | Some text => if (text =? "")%string then ret tt else body text
  | None => ret tt
  end.

(** [main], from the parsed arguments on.  The two calls that take a [str]
    are written out for a [None] argument as Python runs them:
    [open(None, "r")] raises [TypeError], and [prompts.get(None)] finds
    nothing. *)
Definition main (args : Namespace) : Py unit :=
  prompt_manager <-
    create_prompt_manager (goal args) (filename args) (target args);;
  source <-
    match filename args with
    | Some name => read_source_file name
    | None => raise TypeError
    end;;
  if_truthy source (fun source =>
    llm_client <- OpenAIClient_init;;
    prompt <-
      match goal args with
      | Some g =>
          compose_prompt_message llm_client g source prompt_manager
            (target args)
      | None =>
          logging_error
            ("Goal None is not recognized." +:+ Text.nl +:+ Text.nl);;;
          ret None
      end;;
    if_truthy prompt (fun prompt =>
      response <- execute_prompt llm_client prompt;;
      if_truthy (Some response) (fun response =>
        print response))).

(** The script: [main( )] and then [sys.exit(0)]. *)
Definition script (args : Namespace) : Py unit :=
  main args;;; sys_exit 0.

(** ** Texts and inputs the properties are stated with *)

(** The translate template up to its marker, and from its marker on. *)
Definition translate_before : string :=
"Act as a software translation expert. Review the provided 
                source code and rewrite it in ".

Definition translate_after : string :=
" language, preserving the 
                original functionality and logic.
                ".

(** [s[:1].isspace()] and [s[-1:].isspace()]: the text starts, or ends,
    with one of the characters [str.strip] removes. *)
Definition starts_with_whitespace (s : string) : bool :=
  existsb (fun ws => String.prefix ws s) Text.whitespace.

Definition ends_with_whitespace (s : string) : bool :=
  existsb (fun ws => Text.endswith s ws) Text.whitespace.

(** A text put together from the strings of [parts] only. *)
Inductive made_of (parts : list string) : string -> Prop :=
  | made_of_nothing : made_of parts ""
  | made_of_more (part rest : string) :
      In part parts -> made_of parts rest -> made_of parts (part +:+ rest).

(** The three lines of the usage message, as printed. *)
Definition usage_line_1 : string :=
  "Usage is:" +:+ Text.nl +:+ Text.nl +:+ Text.tab
  +:+ "asst.py --goal <goal> --filename <filename> --target <language>"
  +:+ Text.nl.

Definition usage_line_2 : string :=
  Text.tab +:+ Text.tab
  +:+ "Where goal is: [summarize, defects, security, optimize, refactor, document, complexity, naming, translate, cleanup, todo, ut ]"
  +:+ Text.nl.

Definition usage_line_3 : string :=
  Text.tab +:+ Text.tab
  +:+ "and <filename> is the source file to analyze, <language> is the target language for translate."
  +:+ Text.nl +:+ Text.nl.

(** The world after the usage message was printed. *)
Definition usage_printed (w : World) : World :=
  write_stdout usage_line_3 (write_stdout usage_line_2
    (write_stdout usage_line_1 w)).

(** A world with nothing printed, logged or sent yet, in which every file
    has the same fate and the endpoint answers every request alike. *)
Definition quiet_world (env : gmap string string) (file : exn + string)
    (answer : exn + option string) : World :=
  {| environ := env;
     files := fun _ => file;
     completion := fun _ _ => answer;
     stdout := [];
     errlog := [];
     sent := [] |}.

(** A run with a goal outside the fixed set: the file is there and the
    credential is set. *)
Definition bogus_args : Namespace :=
  {| goal := Some "bogus-goal"; filename := Some "foo.py"; target := None |}.

Definition bogus_world : World :=
  quiet_world {[ "OPENAI_KEY" := "sk-test" ]} (inr "x") (inr (Some "fine")).

(** A run whose source file is not there. *)
Definition missing_file_args : Namespace :=
  {| goal := Some "summarize"; filename := Some "nowhere.py"; target := None |}.

Definition missing_file_world : World :=
  quiet_world {[ "OPENAI_KEY" := "sk-test" ]} (inl FileNotFoundError)
    (inr (Some "fine")).

(** A run that goes through: the endpoint answers with blanks around the
    text. *)
Definition summarize_args : Namespace :=
  {| goal := Some "summarize"; filename := Some "foo.py"; target := None |}.

Definition answering_world : World :=
  quiet_world {[ "OPENAI_KEY" := "sk-test" ]} (inr "print(hi)")
    (inr (Some ("  It prints hi. " +:+ Text.nl))).

(** A translation into Rust, and the same without its target. *)
Definition translate_args : Namespace :=
  {| goal := Some "translate"; filename := Some "foo.py";
     target := Some "Rust" |}.

Definition translate_no_target_args : Namespace :=
  {| goal := Some "translate"; filename := Some "foo.py"; target := None |}.

(** A world whose files are empty, and one whose endpoint fails. *)
Definition empty_file_world : World :=
  quiet_world {[ "OPENAI_KEY" := "sk-test" ]} (inr "") (inr (Some "fine")).

Definition failing_endpoint_world : World :=
  quiet_world {[ "OPENAI_KEY" := "sk-test" ]} (inr "print(hi)")
    (inl OpenAIError).

(** A world whose files may not be read. *)
Definition locked_file_world : World :=
  quiet_world {[ "OPENAI_KEY" := "sk-test" ]} (inl PermissionError)
    (inr (Some "fine")).

(** A world without the credential. *)
Definition no_key_world : World :=
  quiet_world (∅ : gmap string string) (inr "x") (inr (Some "fine")).

(** * Properties *)

(** ** Text *)

Lemma string_length_append (p s : string) :
  String.length (p +:+ s) = String.length p + String.length s.
Proof.
  induction p as [|c p IH]; [reflexivity|].
  change (S (String.length (p +:+ s)) = S (String.length p + String.length s)).
  now rewrite IH.
Qed.

Lemma string_append_assoc (a b c : string) :
  (a +:+ b) +:+ c = a +:+ (b +:+ c).
Proof.
  induction a as [|x a IH]; [reflexivity|].
  change (String x ((a +:+ b) +:+ c) = String x (a +:+ (b +:+ c))).
  now rewrite IH.
Qed.

Lemma substring_whole (s : string) :
  String.substring 0 (String.length s) s = s.
Proof.
  induction s as [|c s IH]; [reflexivity|].
  change (String c (String.substring 0 (String.length s) s) = String c s).
  now rewrite IH.
Qed.

Lemma substring_after_prefix (p s : string) :
  String.substring (String.length p) (String.length s) (p +:+ s) = s.
Proof.
  induction p as [|c p IH]; [apply substring_whole|exact IH].
Qed.

Lemma endswith_append (p s : string) : Text.endswith (p +:+ s) s = true.
Proof.
  unfold Text.endswith.
  rewrite string_length_append.
  replace (String.length p + String.length s - String.length s)
    with (String.length p) by lia.
  rewrite substring_after_prefix, String.eqb_refl, andb_true_r.
  apply Nat.leb_le. lia.
Qed.

(** [str.replace] and [str.strip] on small inputs. *)
Example replace_leftmost_first :
  Text.replace "aXXXXbXXX" "XXX" "R" = "aRXbR".
Proof. reflexivity. Qed.

Example replace_empty_old : Text.replace "ab" "" "-" = "-a-b-".
Proof. reflexivity. Qed.

Example strip_both_ends :
  Text.strip (Text.bytes [32; 10; 226; 128; 131; 104; 105; 32; 120; 194; 160; 9])
  = "hi x".
Proof. reflexivity. Qed.

(** ** The registry *)

Lemma dict_get_None {V : Type} (d : dict V) (key : string) :
  dict_get d key = None <-> ~ In key (dict_keys d).
Proof.
  induction d as [|[k v] d IH]; simpl.
  - tauto.
  - destruct (String.eqb_spec k key) as [->|Hne].
    + split; [discriminate|]. intros H. exfalso. apply H. now left.
    + rewrite IH. split.
      * intros H [Hk|Hin]; [congruence|tauto].
      * intros H Hin. apply H. now right.
Qed.

Lemma registered_goal_names :
  dict_keys (prompts PromptManager_init) = goal_names.
Proof. reflexivity. Qed.

Lemma unknown_goal_lookup (g : string) :
  ~ In g goal_names -> get_prompt_by_goal PromptManager_init g = None.
Proof.
  intros H. unfold get_prompt_by_goal.
  apply dict_get_None. now rewrite registered_goal_names.
Qed.

Lemma known_goal_lookup (g : string) :
  In g goal_names ->
  exists template,
    get_prompt_by_goal PromptManager_init g = Some template /\
    template <> "".
Proof.
  intros H.
  repeat (destruct H as [<-|H];
          [eexists; split; [reflexivity|discriminate]|]).
  destruct H.
Qed.

(** C3. Each of the twelve goal names of the specification has a template
    in the registry, and the template is not empty; for every other string
    the lookup answers [None]. *)
Theorem lookup_total_on_fixed_goal_set (g : string) :
  (In g goal_names ->
   exists template,
     get_prompt_by_goal PromptManager_init g = Some template /\
     template <> "") /\
  (~ In g goal_names -> get_prompt_by_goal PromptManager_init g = None).
Proof.
  split; [apply known_goal_lookup|apply unknown_goal_lookup].
Qed.

Lemma lookup_total_on_fixed_goal_set_witness :
  (exists template,
     get_prompt_by_goal PromptManager_init "ut" = Some template /\
     template <> "") /\
  get_prompt_by_goal PromptManager_init "bogus-goal" = None.
Proof.
  split.
  - apply (proj1 (lookup_total_on_fixed_goal_set "ut")).
    unfold goal_names. simpl. tauto.
  - apply (proj2 (lookup_total_on_fixed_goal_set "bogus-goal")).
    unfold goal_names. simpl.
    intros H. repeat (destruct H as [H|H]; [discriminate H|]). exact H.
Defined.

(** ** The composer *)

Section Composer.

Variable self : OpenAIClient.
Variable w : World.

Lemma compose_found (g context template : string) (tgt : option string)
    (pm : PromptManager) :
  get_prompt_by_goal pm g = Some template ->
  compose_prompt_message self g context pm tgt w =
    (Return
       (Some
          ((match tgt with
            | Some language =>
                if (g =? "translate")%string
                then Text.replace template "XXX" language
                else template
            | None => template
            end) +:+ context)),
     w).
Proof.
  intros H. unfold compose_prompt_message. now rewrite H.
Qed.

Lemma compose_not_found (g context : string) (tgt : option string)
    (pm : PromptManager) :
  get_prompt_by_goal pm g = None ->
  compose_prompt_message self g context pm tgt w =
    (Return None,
     write_errlog
       ("Goal " +:+ g +:+ " is not recognized." +:+ Text.nl +:+ Text.nl) w).
Proof.
  intros H. unfold compose_prompt_message. now rewrite H.
Qed.

(** C2. The translate template is [before], the marker [XXX], then
    [after], and holds the marker once.  Composing it with the target
    [Rust] and any source text gives [before], [Rust], [after] and then the
    source text as it is: the result ends with the source text, whatever
    markers the source text holds. *)
Theorem compose_translate_Rust (sourceText : string) :
  let template := translate_before +:+ "XXX" +:+ translate_after in
  let result :=
    translate_before +:+ "Rust" +:+ translate_after +:+ sourceText in
  get_prompt_by_goal PromptManager_init "translate" = Some template /\
  Text.occurrences "XXX" template = 1 /\
  compose_prompt_message self "translate" sourceText PromptManager_init
    (Some "Rust") w = (Return (Some result), w) /\
  Text.endswith result sourceText = true.
Proof.
  cbv zeta. split; [|split; [|split]].
  - vm_compute. reflexivity.
  - vm_compute. reflexivity.
  - rewrite (compose_found "translate" sourceText Prompts.translate)
      by reflexivity.
    change ((if ("translate" =? "translate")%string
             then Text.replace Prompts.translate "XXX" "Rust"
             else Prompts.translate) +:+ sourceText)
      with (Text.replace Prompts.translate "XXX" "Rust" +:+ sourceText).
    replace (Text.replace Prompts.translate "XXX" "Rust")
      with (translate_before +:+ "Rust" +:+ translate_after)
      by (vm_compute; reflexivity).
    now rewrite !string_append_assoc.
  - rewrite <- !string_append_assoc. apply endswith_append.
Qed.

(** C4. For a goal of the fixed set other than [translate], composing
    without a target gives the goal's template followed at once by the
    source text. *)
Theorem compose_without_target (g sourceText : string) :
  In g goal_names ->
  g <> "translate" ->
  exists template,
    get_prompt_by_goal PromptManager_init g = Some template /\
    compose_prompt_message self g sourceText PromptManager_init None w
      = (Return (Some (template +:+ sourceText)), w).
Proof.
  intros Hin _.
  destruct (known_goal_lookup g Hin) as (template & Hget & _).
  exists template. split; [exact Hget|].
  now rewrite (compose_found g sourceText template None).
Qed.

(** C8. For a goal outside the fixed set, whatever the source text and
    the target, the composer returns [None]: it logs the goal and raises
    nothing. *)
Theorem compose_unknown_goal (g sourceText : string) (tgt : option string) :
  ~ In g goal_names ->
  compose_prompt_message self g sourceText PromptManager_init tgt w =
    (Return None,
     write_errlog
       ("Goal " +:+ g +:+ " is not recognized." +:+ Text.nl +:+ Text.nl) w).
Proof.
  intros H. apply compose_not_found. now apply unknown_goal_lookup.
Qed.

End Composer.

(** A marker in the source text stays: only the template was rewritten. *)
Example compose_translate_keeps_source_marker (self : OpenAIClient)
    (w : World) :
  compose_prompt_message self "translate" "XXX" PromptManager_init
    (Some "Rust") w
  = (Return (Some (translate_before +:+ "Rust" +:+ translate_after +:+ "XXX")),
     w).
Proof. reflexivity. Qed.

(** ** Running code *)

Lemma bind_Return {A B : Type} (m : Py A) (k : A -> Py B) (w w' : World)
    (a : A) :
  m w = (Return a, w') -> bind m k w = k a w'.
Proof. intros H. unfold bind. now rewrite H. Qed.

Lemma bind_SystemExit {A B : Type} (m : Py A) (k : A -> Py B)
    (w w' : World) (code : Z) :
  m w = (SystemExit code, w') -> bind m k w = (SystemExit code, w').
Proof. intros H. unfold bind. now rewrite H. Qed.

Lemma bind_Raised {A B : Type} (m : Py A) (k : A -> Py B) (w w' : World)
    (e : exn) :
  m w = (Raised e, w') -> bind m k w = (Raised e, w').
Proof. intros H. unfold bind. now rewrite H. Qed.

Lemma issubclass_FileNotFoundError (e : exn) :
  issubclass e FileNotFoundError = true <-> e = FileNotFoundError.
Proof. destruct e; vm_compute; split; congruence. Qed.

(** ** The credential *)

Lemma OpenAIClient_init_run (w : World) :
  OpenAIClient_init w =
    match environ w !! "OPENAI_KEY" with
    | None =>
        (SystemExit 1, write_errlog ("OPENAI_KEY is not set" +:+ Text.nl) w)
    | Some key => (Return {| openai_key := key |}, w)
    end.
Proof.
  unfold OpenAIClient_init, _get_openai_key, os_environ_get, bind.
  now destruct (environ w !! "OPENAI_KEY").
Qed.

(** C5. Without [OPENAI_KEY] in the environment, building the client logs
    one error and raises [SystemExit(1)], with nothing printed, no request
    sent and no second look at the environment, and none of the code that
    follows the construction runs; with the variable set, the client holds
    its value and the world is as before. *)
Theorem client_needs_credential (w : World) :
  (environ w !! "OPENAI_KEY" = None ->
   OpenAIClient_init w =
     (SystemExit 1,
      write_errlog ("OPENAI_KEY is not set" +:+ Text.nl) w) /\
   forall (B : Type) (rest : OpenAIClient -> Py B),
     bind OpenAIClient_init rest w =
       (SystemExit 1,
        write_errlog ("OPENAI_KEY is not set" +:+ Text.nl) w)) /\
  (forall key : string,
     environ w !! "OPENAI_KEY" = Some key ->
     OpenAIClient_init w = (Return {| openai_key := key |}, w)).
Proof.
  split.
  - intros H.
    assert (Hrun : OpenAIClient_init w =
                   (SystemExit 1,
                    write_errlog ("OPENAI_KEY is not set" +:+ Text.nl) w))
      by now rewrite OpenAIClient_init_run, H.
    split; [exact Hrun|].
    intros B rest. now apply bind_SystemExit.
  - intros key H. now rewrite OpenAIClient_init_run, H.
Qed.

(** ** The file reader *)

Lemma read_source_file_run (name : string) (w : World) :
  read_source_file name w =
    match files w name with
    | inr text => (Return (Some text), w)
    | inl e =>
        if issubclass e FileNotFoundError
        then (Return None,
              write_errlog
                ("Source filename (" +:+ name +:+ ") not found.") w)
        else (Raised e, w)
    end.
Proof.
  unfold read_source_file, try_except, bind, open_read.
  destruct (files w name) as [e|text]; [|reflexivity].
  now destruct (issubclass e FileNotFoundError).
Qed.

(** C7. When opening the file fails because the file is not there,
    [read_source_file] logs one error naming the file and returns [None];
    no exception leaves it. *)
Theorem read_missing_file (name : string) (w : World) :
  files w name = inl FileNotFoundError ->
  read_source_file name w =
    (Return None,
     write_errlog ("Source filename (" +:+ name +:+ ") not found.") w).
Proof.
  intros H. rewrite read_source_file_run, H. reflexivity.
Qed.

(** C10. [read_source_file] returns [None] exactly when opening the file
    fails with [FileNotFoundError]; any other exception of opening or
    reading leaves it as it is, with nothing logged. *)
Theorem read_catches_only_missing_file (name : string) (w : World) :
  (fst (read_source_file name w) = Return None <->
   files w name = inl FileNotFoundError) /\
  (forall e : exn,
     files w name = inl e ->
     e <> FileNotFoundError ->
     read_source_file name w = (Raised e, w)).
Proof.
  rewrite read_source_file_run. split.
  - destruct (files w name) as [e|text]; simpl.
    + destruct (issubclass e FileNotFoundError) eqn:He; simpl.
      * apply issubclass_FileNotFoundError in He. subst e. tauto.
      * split; [discriminate|].
        intros H. injection H as ->. discriminate He.
    + split; discriminate.
  - intros e H Hne. rewrite H.
    destruct (issubclass e FileNotFoundError) eqn:He; [|reflexivity].
    apply issubclass_FileNotFoundError in He. contradiction.
Qed.

(** ** The command line *)

Lemma print_usage_instructions_run (w : World) :
  print_usage_instructions PromptManager_init w = (Return tt, usage_printed w).
Proof. reflexivity. Qed.

Lemma create_prompt_manager_run (g name tgt : option string) (w : World) :
  create_prompt_manager g name tgt w =
    if is_None g || is_None name
    then (SystemExit 1, usage_printed w)
    else if goal_is g "translate" && is_None tgt
         then (SystemExit 1, usage_printed w)
         else (Return PromptManager_init, w).
Proof.
  unfold create_prompt_manager.
  destruct (is_None g || is_None name); [reflexivity|].
  destruct (goal_is g "translate" && is_None tgt); reflexivity.
Qed.

Lemma goal_is_unknown (g : string) :
  ~ In g goal_names -> goal_is (Some g) "translate" = false.
Proof.
  intros H. simpl. apply String.eqb_neq. intros ->. apply H.
  unfold goal_names. simpl. tauto.
Qed.

(** The run of the script for a goal outside the fixed set, once the file
    is read and the credential is there. *)
Lemma script_unknown_goal (args : Namespace) (w : World)
    (g name text key : string) :
  goal args = Some g ->
  ~ In g goal_names ->
  filename args = Some name ->
  files w name = inr text ->
  text <> "" ->
  environ w !! "OPENAI_KEY" = Some key ->
  script args w =
    (SystemExit 0,
     write_errlog
       ("Goal " +:+ g +:+ " is not recognized." +:+ Text.nl +:+ Text.nl) w).
Proof.
  intros Hg Hunknown Hname Hfile Htext Hkey.
  unfold script, main. rewrite Hg, Hname.
  erewrite bind_Return; [reflexivity|].
  erewrite bind_Return;
    [|rewrite create_prompt_manager_run, (goal_is_unknown g Hunknown);
      reflexivity].
  erewrite bind_Return; [|rewrite read_source_file_run, Hfile; reflexivity].
  unfold if_truthy at 1.
  apply String.eqb_neq in Htext. rewrite Htext.
  erewrite bind_Return; [|rewrite OpenAIClient_init_run, Hkey; reflexivity].
  erewrite bind_Return;
    [|now apply compose_not_found, unknown_goal_lookup].
  reflexivity.
Qed.

(** C1, as the code has it. When the goal is outside the fixed set and
    composition is reached (the file was read and is not empty, the
    credential is set), the script logs the goal, prints nothing, sends no
    request, and ends by [sys.exit(0)]: the exit status is 0. *)
Theorem unknown_goal_ends_quietly (args : Namespace) (w : World)
    (g name text key : string) :
  goal args = Some g ->
  ~ In g goal_names ->
  filename args = Some name ->
  files w name = inr text ->
  text <> "" ->
  environ w !! "OPENAI_KEY" = Some key ->
  let run := script args w in
  stdout (snd run) = stdout w /\
  sent (snd run) = sent w /\
  errlog (snd run) =
    errlog w ++
    ["Goal " +:+ g +:+ " is not recognized." +:+ Text.nl +:+ Text.nl] /\
  fst run = SystemExit 0 /\
  exit_status (fst run) = 0%Z.
Proof.
  intros Hg Hunknown Hname Hfile Htext Hkey run. subst run.
  rewrite (script_unknown_goal args w g name text key) by assumption.
  repeat split.
Qed.

(** C1 does not hold as stated: for the goal [bogus-goal], a file that is
    there and a credential that is set, composition is reached and fails,
    and the exit status is 0, not 1. *)
Lemma unknown_goal_exit_status_counterexample :
  ~ In "bogus-goal" goal_names /\
  compose_prompt_message {| openai_key := "sk-test" |} "bogus-goal" "x"
    PromptManager_init None bogus_world
    = (Return None,
       write_errlog
         ("Goal bogus-goal is not recognized." +:+ Text.nl +:+ Text.nl)
         bogus_world) /\
  exit_status (fst (script bogus_args bogus_world)) = 0%Z /\
  exit_status (fst (script bogus_args bogus_world)) <> 1%Z.
Proof.
  assert (Hunknown : ~ In "bogus-goal" goal_names).
  { unfold goal_names. simpl. intros H.
    repeat (destruct H as [H|H]; [discriminate H|]). exact H. }
  assert (Hrun : script bogus_args bogus_world =
                 (SystemExit 0,
                  write_errlog
                    ("Goal bogus-goal is not recognized."
                     +:+ Text.nl +:+ Text.nl) bogus_world)).
  { apply (script_unknown_goal bogus_args bogus_world
             "bogus-goal" "foo.py" "x" "sk-test");
      try reflexivity; try assumption; discriminate. }
  split; [exact Hunknown|]. split.
  - now apply compose_not_found, unknown_goal_lookup.
  - rewrite Hrun. simpl. split; [reflexivity|discriminate].
Qed.

(** C6. Without [--goal] and without [--file], whatever [--target] is, the
    script prints the three lines of the usage message, the second of which
    lists the twelve goal names separated by a comma and a space, and ends
    by [sys.exit(1)]; nothing is logged and no request is sent. *)
Theorem no_flags_prints_usage_and_exits_1 (tgt : option string) (w : World) :
  let run := script {| goal := None; filename := None; target := tgt |} w in
  fst run = SystemExit 1 /\
  exit_status (fst run) = 1%Z /\
  stdout (snd run) = stdout w ++ [usage_line_1; usage_line_2; usage_line_3] /\
  errlog (snd run) = errlog w /\
  sent (snd run) = sent w /\
  Text.contains (Text.join ", " goal_names) usage_line_2 = true /\
  Forall (fun g => Text.contains g usage_line_2 = true)
    (dict_keys (prompts PromptManager_init)).
Proof.
  assert (Hrun : script {| goal := None; filename := None; target := tgt |} w
                 = (SystemExit 1, usage_printed w)).
  { unfold script, main.
    erewrite bind_SystemExit; [reflexivity|].
    erewrite bind_SystemExit; [reflexivity|].
    now rewrite create_prompt_manager_run. }
  cbv zeta. rewrite Hrun. simpl.
  split; [reflexivity|]. split; [reflexivity|]. split.
  - now rewrite <- !app_assoc.
  - split; [reflexivity|]. split; [reflexivity|]. split.
    + vm_compute. reflexivity.
    + repeat constructor.
Qed.

(** C9. Whenever reading the named source file returns [None], the script
    ends with no request sent to the completion endpoint. *)
Theorem missing_source_sends_nothing (args : Namespace) (w : World)
    (name : string) :
  filename args = Some name ->
  fst (read_source_file name w) = Return None ->
  sent (snd (script args w)) = sent w.
Proof.
  intros Hname Hread.
  unfold script, main. rewrite Hname.
  unfold bind at 1. unfold bind at 1.
  rewrite create_prompt_manager_run.
  destruct (is_None (goal args) || is_None (Some name)); [reflexivity|].
  destruct (goal_is (goal args) "translate" && is_None (target args));
    [reflexivity|].
  unfold bind at 1.
  destruct (read_source_file name w) as [[source| |] w'] eqn:Hrun;
    simpl in Hread; try discriminate Hread.
  injection Hread as ->.
  rewrite read_source_file_run in Hrun.
  destruct (files w name) as [e|text]; [|discriminate Hrun].
  destruct (issubclass e FileNotFoundError); [|discriminate Hrun].
  injection Hrun as <-. reflexivity.
Qed.

(** The run that goes through: one request, the summarize template
    followed at once by the source text, and the trimmed answer printed. *)
Example script_summarize_run :
  let run := script summarize_args answering_world in
  fst run = SystemExit 0 /\
  sent (snd run) = [Prompts.summarize +:+ "print(hi)"] /\
  stdout (snd run) = ["It prints hi." +:+ Text.nl] /\
  errlog (snd run) = [].
Proof. vm_compute. repeat split. Qed.

(** ** The theorems at concrete inputs *)

Lemma not_a_goal_bogus : ~ In "bogus-goal" goal_names.
Proof.
  unfold goal_names. simpl. intros H.
  repeat (destruct H as [H|H]; [discriminate H|]). exact H.
Defined.

Lemma unknown_goal_ends_quietly_witness :
  let run := script bogus_args bogus_world in
  stdout (snd run) = stdout bogus_world /\
  sent (snd run) = sent bogus_world /\
  errlog (snd run) =
    errlog bogus_world ++
    ["Goal " +:+ "bogus-goal" +:+ " is not recognized."
     +:+ Text.nl +:+ Text.nl] /\
  fst run = SystemExit 0 /\
  exit_status (fst run) = 0%Z.
Proof.
  apply (unknown_goal_ends_quietly bogus_args bogus_world
           "bogus-goal" "foo.py" "x" "sk-test").
  - reflexivity.
  - exact not_a_goal_bogus.
  - reflexivity.
  - reflexivity.
  - discriminate.
  - reflexivity.
Defined.

Lemma compose_without_target_witness :
  exists template,
    get_prompt_by_goal PromptManager_init "summarize" = Some template /\
    compose_prompt_message {| openai_key := "sk-test" |} "summarize"
      "print(hi)" PromptManager_init None bogus_world
      = (Return (Some (template +:+ "print(hi)")), bogus_world).
Proof.
  apply (compose_without_target {| openai_key := "sk-test" |} bogus_world
           "summarize" "print(hi)").
  - unfold goal_names. simpl. tauto.
  - discriminate.
Defined.

Lemma client_needs_credential_witness :
  (OpenAIClient_init no_key_world =
     (SystemExit 1,
      write_errlog ("OPENAI_KEY is not set" +:+ Text.nl) no_key_world) /\
   forall (B : Type) (rest : OpenAIClient -> Py B),
     bind OpenAIClient_init rest no_key_world =
       (SystemExit 1,
        write_errlog ("OPENAI_KEY is not set" +:+ Text.nl) no_key_world)) /\
  OpenAIClient_init bogus_world =
    (Return {| openai_key := "sk-test" |}, bogus_world).
Proof.
  split.
  - apply (proj1 (client_needs_credential no_key_world)). reflexivity.
  - apply (proj2 (client_needs_credential bogus_world) "sk-test").
    reflexivity.
Defined.

Lemma read_missing_file_witness :
  read_source_file "nowhere.py" missing_file_world =
    (Return None,
     write_errlog ("Source filename (" +:+ "nowhere.py" +:+ ") not found.")
       missing_file_world).
Proof.
  apply (read_missing_file "nowhere.py" missing_file_world). reflexivity.
Defined.

Lemma compose_unknown_goal_witness :
  compose_prompt_message {| openai_key := "sk-test" |} "bogus-goal" "x"
    PromptManager_init None bogus_world =
    (Return None,
     write_errlog
       ("Goal " +:+ "bogus-goal" +:+ " is not recognized."
        +:+ Text.nl +:+ Text.nl) bogus_world).
Proof.
  apply (compose_unknown_goal {| openai_key := "sk-test" |} bogus_world
           "bogus-goal" "x" None).
  exact not_a_goal_bogus.
Defined.

Lemma missing_source_sends_nothing_witness :
  sent (snd (script missing_file_args missing_file_world))
    = sent missing_file_world.
Proof.
  apply (missing_source_sends_nothing missing_file_args missing_file_world
           "nowhere.py").
  - reflexivity.
  - reflexivity.
Defined.

Lemma read_catches_only_missing_file_witness :
  fst (read_source_file "nowhere.py" missing_file_world) = Return None /\
  read_source_file "secret.py" locked_file_world
    = (Raised PermissionError, locked_file_world).
Proof.
  split.
  - apply (proj1 (read_catches_only_missing_file "nowhere.py"
                    missing_file_world)).
    reflexivity.
  - apply (proj2 (read_catches_only_missing_file "secret.py"
                    locked_file_world) PermissionError).
    + reflexivity.
    + discriminate.
Defined.

(** * Further properties of the run *)

(** ** The script, case by case *)

(** The arguments pass [create_prompt_manager]: both flags are there, and
    the target is there when the goal is [translate]. *)
Lemma script_usage_error (args : Namespace) (w : World) :
  is_None (goal args) || is_None (filename args)
  || (goal_is (goal args) "translate" && is_None (target args)) = true ->
  script args w = (SystemExit 1, usage_printed w).
Proof.
  intros H. unfold script, main.
  erewrite bind_SystemExit; [reflexivity|].
  erewrite bind_SystemExit; [reflexivity|].
  rewrite create_prompt_manager_run.
  destruct (is_None (goal args) || is_None (filename args)); [reflexivity|].
  simpl in H. now rewrite H.
Qed.

Lemma script_valid_arguments (args : Namespace) (w : World)
    (g name : string) :
  goal args = Some g ->
  filename args = Some name ->
  goal_is (Some g) "translate" && is_None (target args) = false ->
  script args w =
    match files w name with
    | inl e =>
        if issubclass e FileNotFoundError
        then (SystemExit 0,
              write_errlog
                ("Source filename (" +:+ name +:+ ") not found.") w)
        else (Raised e, w)
    | inr text =>
        if (text =? "")%string then (SystemExit 0, w)
        else
          match environ w !! "OPENAI_KEY" with
          | None =>
              (SystemExit 1,
               write_errlog ("OPENAI_KEY is not set" +:+ Text.nl) w)
          | Some key =>
              match get_prompt_by_goal PromptManager_init g with
              | None =>
                  (SystemExit 0,
                   write_errlog
                     ("Goal " +:+ g +:+ " is not recognized."
                      +:+ Text.nl +:+ Text.nl) w)
              | Some template =>
                  let prompt :=
                    (match target args with
                     | Some language =>
                         if (g =? "translate")%string
                         then Text.replace template "XXX" language
                         else template
                     | None => template
                     end) +:+ text in
                  if (prompt =? "")%string then (SystemExit 0, w)
                  else
                    match completion w key prompt with
                    | inl e => (Raised e, write_sent prompt w)
                    | inr None => (Raised AttributeError, write_sent prompt w)
                    | inr (Some content) =>
                        if (Text.strip content =? "")%string
                        then (SystemExit 0, write_sent prompt w)
                        else (SystemExit 0,
                              write_stdout (Text.strip content +:+ Text.nl)
                                (write_sent prompt w))
                    end
              end
          end
    end.
Proof.
  intros Hg Hname Hvalid.
  unfold script, main. rewrite Hg, Hname.
  unfold bind at 1. unfold bind at 1.
  rewrite create_prompt_manager_run. simpl (is_None (Some _)). simpl orb.
  rewrite Hvalid.
  unfold bind at 1. rewrite read_source_file_run.
  destruct (files w name) as [e|text].
  { now destruct (issubclass e FileNotFoundError). }
  unfold if_truthy at 1.
  destruct (text =? "")%string; [reflexivity|].
  unfold bind at 1. rewrite OpenAIClient_init_run.
  destruct (environ w !! "OPENAI_KEY") as [key|]; [|reflexivity].
  unfold bind at 1.
  destruct (get_prompt_by_goal PromptManager_init g) as [template|] eqn:Hget.
  - rewrite (compose_found _ w g text template (target args)) by exact Hget.
    cbv zeta. unfold if_truthy at 1.
    match goal with |- context [(?p =? "")%string] =>
      destruct (p =? "")%string; [reflexivity|] end.
    unfold bind at 1, execute_prompt. simpl openai_key.
    match goal with |- context [completion w key ?p] =>
      destruct (completion w key p) as [e|[content|]] end;
      try reflexivity.
    unfold if_truthy.
    now destruct (Text.strip content =? "")%string.
  - rewrite (compose_not_found _ w g text (target args)) by exact Hget.
    reflexivity.
Qed.

(** ** The composer, for every goal and every target *)

Lemma append_nonempty (a b : string) : a <> "" -> a +:+ b <> "".
Proof.
  destruct a as [|c a]; [congruence|].
  intros _. change (String c (a +:+ b) <> ""). discriminate.
Qed.

Lemma prefix_append (p s : string) : String.prefix p (p +:+ s) = true.
Proof.
  induction p as [|c p IH]; [now destruct s|].
  change (String.prefix (String c p) (String c (p +:+ s)) = true).
  simpl. destruct (ascii_dec c c) as [_|Hne]; [exact IH|congruence].
Qed.

Lemma contains_unfold (needle s : string) :
  Text.contains needle s =
    String.prefix needle s ||
    match s with
    | EmptyString => false
    | String _ s' => Text.contains needle s'
    end.
Proof. destruct s; reflexivity. Qed.

Lemma contains_prefix (needle s : string) :
  String.prefix needle s = true -> Text.contains needle s = true.
Proof. intros H. rewrite contains_unfold, H. reflexivity. Qed.

Lemma contains_append (needle a b : string) :
  Text.contains needle (a +:+ needle +:+ b) = true.
Proof.
  induction a as [|c a IH].
  - change ("" +:+ needle +:+ b) with (needle +:+ b).
    apply contains_prefix. apply (prefix_append needle b).
  - change (String c a +:+ needle +:+ b) with (String c (a +:+ needle +:+ b)).
    rewrite contains_unfold, IH. apply orb_true_r.
Qed.

Lemma replace_translate_marker (language : string) :
  Text.replace Prompts.translate "XXX" language
  = translate_before +:+ language +:+ translate_after.
Proof. vm_compute. reflexivity. Qed.

Lemma lookup_translate :
  get_prompt_by_goal PromptManager_init "translate" = Some Prompts.translate.
Proof. reflexivity. Qed.

Lemma in_goal_names_summarize : In "summarize" goal_names.
Proof. unfold goal_names. simpl. tauto. Defined.

(** What the composer puts before the source text, for a goal of the fixed
    set: never the empty string. *)
Lemma substituted_template_nonempty (g template : string)
    (tgt : option string) :
  get_prompt_by_goal PromptManager_init g = Some template ->
  match tgt with
  | Some language =>
      if (g =? "translate")%string
      then Text.replace template "XXX" language
      else template
  | None => template
  end <> "".
Proof.
  intros Hget.
  assert (Htemplate : template <> "").
  { destruct (in_dec string_dec g goal_names) as [Hin|Hout].
    - destruct (known_goal_lookup g Hin) as (t & Ht & Hne). congruence.
    - rewrite (unknown_goal_lookup g Hout) in Hget. discriminate. }
  destruct tgt as [language|]; [|exact Htemplate].
  destruct (String.eqb_spec g "translate") as [->|_]; [|exact Htemplate].
  rewrite lookup_translate in Hget. injection Hget as <-.
  rewrite replace_translate_marker. now apply append_nonempty.
Qed.

Section ComposerAtLarge.

Variable self : OpenAIClient.
Variable w : World.

(** X1. For the goal [translate], every target and every source text, the
    composer returns the template with the target where the marker was,
    then the source text; the target is put in as it is, also when it is
    empty or holds the marker itself, and nothing is logged. *)
Theorem compose_translate_any_target (language sourceText : string) :
  compose_prompt_message self "translate" sourceText PromptManager_init
    (Some language) w
  = (Return
       (Some (translate_before +:+ language +:+ translate_after
              +:+ sourceText)),
     w).
Proof.
  rewrite (compose_found self w "translate" sourceText Prompts.translate)
    by reflexivity.
  change (("translate" =? "translate")%string) with true. cbv iota.
  now rewrite replace_translate_marker, !string_append_assoc.
Qed.

(** X2. For a goal of the fixed set other than [translate], the target is
    ignored: with any target or none, the result is the goal's template
    followed at once by the source text. *)
Theorem compose_ignores_target (g sourceText : string)
    (tgt : option string) :
  In g goal_names ->
  g <> "translate" ->
  exists template,
    get_prompt_by_goal PromptManager_init g = Some template /\
    compose_prompt_message self g sourceText PromptManager_init tgt w
      = (Return (Some (template +:+ sourceText)), w).
Proof.
  intros Hin Hne.
  destruct (known_goal_lookup g Hin) as (template & Hget & _).
  exists template. split; [exact Hget|].
  rewrite (compose_found self w g sourceText template tgt) by exact Hget.
  apply String.eqb_neq in Hne. rewrite Hne. now destruct tgt.
Qed.

(** X3. The composer itself does not ask for a target: for [translate]
    without one it returns the template and the source text with the marker
    [XXX] still in the prompt. *)
Theorem compose_translate_without_target (sourceText : string) :
  exists prompt,
    compose_prompt_message self "translate" sourceText PromptManager_init
      None w = (Return (Some prompt), w) /\
    prompt = translate_before +:+ "XXX" +:+ translate_after +:+ sourceText /\
    Text.contains "XXX" prompt = true.
Proof.
  eexists. split; [|split].
  - rewrite (compose_found self w "translate" sourceText Prompts.translate)
      by reflexivity.
    reflexivity.
  - replace Prompts.translate
      with (translate_before +:+ "XXX" +:+ translate_after)
      by (vm_compute; reflexivity).
    now rewrite !string_append_assoc.
  - replace Prompts.translate
      with (translate_before +:+ "XXX" +:+ translate_after)
      by (vm_compute; reflexivity).
    rewrite !string_append_assoc. apply contains_append.
Qed.

(** X4. For a goal of the fixed set the composer never fails and never
    returns an empty prompt, whatever the source text (the empty one too)
    and the target: it logs nothing, and the test [if prompt] of [main]
    passes. *)
Theorem compose_known_goal_nonempty (g sourceText : string)
    (tgt : option string) :
  In g goal_names ->
  exists prompt,
    compose_prompt_message self g sourceText PromptManager_init tgt w
      = (Return (Some prompt), w) /\
    prompt <> "" /\
    Text.endswith prompt sourceText = true.
Proof.
  intros Hin.
  destruct (known_goal_lookup g Hin) as (template & Hget & _).
  eexists. split; [|split].
  - exact (compose_found self w g sourceText template tgt
             PromptManager_init Hget).
  - apply append_nonempty. now apply substituted_template_nonempty.
  - apply endswith_append.
Qed.

End ComposerAtLarge.

(** ** Single runs of the script *)

Lemma target_given (g : string) (tgt : option string) :
  (g = "translate" -> tgt <> None) ->
  goal_is (Some g) "translate" && is_None tgt = false.
Proof.
  intros H. simpl. destruct (String.eqb_spec g "translate") as [Hg|_];
    [|reflexivity].
  destruct tgt; [reflexivity|]. now destruct (H Hg).
Qed.

Lemma lookup_found_in_goal_names (g template : string) :
  get_prompt_by_goal PromptManager_init g = Some template ->
  In g goal_names.
Proof.
  intros Hget. destruct (in_dec string_dec g goal_names) as [Hin|Hout];
    [exact Hin|].
  rewrite (unknown_goal_lookup g Hout) in Hget. discriminate.
Qed.

(** The run up to the request: the composed prompt goes to the endpoint,
    with the key of the environment. *)
Lemma script_request (args : Namespace) (w : World)
    (g name text key prompt : string) :
  goal args = Some g ->
  filename args = Some name ->
  (g = "translate" -> target args <> None) ->
  files w name = inr text ->
  text <> "" ->
  environ w !! "OPENAI_KEY" = Some key ->
  compose_prompt_message {| openai_key := key |} g text PromptManager_init
    (target args) w = (Return (Some prompt), w) ->
  script args w =
    match completion w key prompt with
    | inl e => (Raised e, write_sent prompt w)
    | inr None => (Raised AttributeError, write_sent prompt w)
    | inr (Some content) =>
        if (Text.strip content =? "")%string
        then (SystemExit 0, write_sent prompt w)
        else (SystemExit 0,
              write_stdout (Text.strip content +:+ Text.nl)
                (write_sent prompt w))
    end.
Proof.
  intros Hg Hname Htarget Hfile Htext Hkey Hcompose.
  rewrite (script_valid_arguments args w g name Hg Hname
             (target_given g (target args) Htarget)).
  rewrite Hfile, Hkey. apply String.eqb_neq in Htext. rewrite Htext.
  unfold compose_prompt_message in Hcompose.
  destruct (get_prompt_by_goal PromptManager_init g) as [template|] eqn:Hget;
    [|discriminate Hcompose].
  injection Hcompose as Hprompt. cbv zeta. rewrite Hprompt.
  assert (Hne : (prompt =? "")%string = false).
  { apply String.eqb_neq. rewrite <- Hprompt. apply append_nonempty.
    now apply substituted_template_nonempty. }
  rewrite Hne. reflexivity.
Qed.

(** X5. With both flags, a target when the goal is [translate], a source
    file that is read and not empty, the credential set and an endpoint
    that answers, the script sends one request, the prompt the composer
    returns, prints the answer without the blanks around it (nothing when
    only blanks are left), logs nothing and ends by [sys.exit(0)]. *)
Theorem script_sends_composed_prompt (args : Namespace) (w : World)
    (g name text key prompt content : string) :
  goal args = Some g ->
  filename args = Some name ->
  (g = "translate" -> target args <> None) ->
  files w name = inr text ->
  text <> "" ->
  environ w !! "OPENAI_KEY" = Some key ->
  compose_prompt_message {| openai_key := key |} g text PromptManager_init
    (target args) w = (Return (Some prompt), w) ->
  completion w key prompt = inr (Some content) ->
  let run := script args w in
  fst run = SystemExit 0 /\
  sent (snd run) = sent w ++ [prompt] /\
  stdout (snd run) =
    stdout w ++
    (if (Text.strip content =? "")%string then []
     else [Text.strip content +:+ Text.nl]) /\
  errlog (snd run) = errlog w.
Proof.
  intros Hg Hname Htarget Hfile Htext Hkey Hcompose Hanswer run. subst run.
  rewrite (script_request args w g name text key prompt) by assumption.
  rewrite Hanswer.
  destruct (Text.strip content =? "")%string; simpl;
    rewrite ?app_nil_r; repeat split.
Qed.

(** X6. When the endpoint raises instead, the exception leaves the script
    as it is: the request was made, nothing is printed or logged, and the
    exit status is 1. *)
Theorem script_endpoint_failure (args : Namespace) (w : World)
    (g name text key prompt : string) (e : exn) :
  goal args = Some g ->
  filename args = Some name ->
  (g = "translate" -> target args <> None) ->
  files w name = inr text ->
  text <> "" ->
  environ w !! "OPENAI_KEY" = Some key ->
  compose_prompt_message {| openai_key := key |} g text PromptManager_init
    (target args) w = (Return (Some prompt), w) ->
  completion w key prompt = inl e ->
  script args w = (Raised e, write_sent prompt w) /\
  exit_status (fst (script args w)) = 1%Z /\
  stdout (snd (script args w)) = stdout w /\
  errlog (snd (script args w)) = errlog w.
Proof.
  intros Hg Hname Htarget Hfile Htext Hkey Hcompose Hanswer.
  rewrite (script_request args w g name text key prompt) by assumption.
  rewrite Hanswer. repeat split.
Qed.

(** X7. An empty source file ends the run at once: nothing is printed,
    logged or sent, the credential is not looked at and the goal is not
    looked up, and the exit status is 0. *)
Theorem script_empty_source (args : Namespace) (w : World)
    (g name : string) :
  goal args = Some g ->
  filename args = Some name ->
  (g = "translate" -> target args <> None) ->
  files w name = inr "" ->
  script args w = (SystemExit 0, w).
Proof.
  intros Hg Hname Htarget Hfile.
  rewrite (script_valid_arguments args w g name Hg Hname
             (target_given g (target args) Htarget)).
  now rewrite Hfile.
Qed.

(** X8. A source file that is not there ends the run with one logged
    error and the exit status 0, whether or not the goal is known and the
    credential set. *)
Theorem script_missing_file (args : Namespace) (w : World)
    (g name : string) :
  goal args = Some g ->
  filename args = Some name ->
  (g = "translate" -> target args <> None) ->
  files w name = inl FileNotFoundError ->
  script args w =
    (SystemExit 0,
     write_errlog ("Source filename (" +:+ name +:+ ") not found.") w).
Proof.
  intros Hg Hname Htarget Hfile.
  rewrite (script_valid_arguments args w g name Hg Hname
             (target_given g (target args) Htarget)).
  now rewrite Hfile.
Qed.

(** X9. The credential is looked at before the goal: with a source file
    that is not empty and no [OPENAI_KEY], the script logs the missing
    credential and ends with status 1, and a goal outside the fixed set
    goes unreported. *)
Theorem script_missing_credential (args : Namespace) (w : World)
    (g name text : string) :
  goal args = Some g ->
  filename args = Some name ->
  (g = "translate" -> target args <> None) ->
  files w name = inr text ->
  text <> "" ->
  environ w !! "OPENAI_KEY" = None ->
  script args w =
    (SystemExit 1, write_errlog ("OPENAI_KEY is not set" +:+ Text.nl) w).
Proof.
  intros Hg Hname Htarget Hfile Htext Hkey.
  rewrite (script_valid_arguments args w g name Hg Hname
             (target_given g (target args) Htarget)).
  rewrite Hfile, Hkey. apply String.eqb_neq in Htext. now rewrite Htext.
Qed.

(** X10. A missing [--goal], a missing [--file], or the goal [translate]
    without [--target] each end the run before anything is read: the three
    usage lines are printed, nothing is logged or sent, and the script ends
    by [sys.exit(1)], whatever the files and the environment hold. *)
Theorem script_usage_errors (args : Namespace) (w : World) :
  goal args = None \/ filename args = None \/
  (goal args = Some "translate" /\ target args = None) ->
  script args w = (SystemExit 1, usage_printed w) /\
  stdout (snd (script args w)) =
    stdout w ++ [usage_line_1; usage_line_2; usage_line_3] /\
  errlog (snd (script args w)) = errlog w /\
  sent (snd (script args w)) = sent w.
Proof.
  intros H.
  assert (Hrun : script args w = (SystemExit 1, usage_printed w)).
  { apply script_usage_error.
    destruct H as [H|[H|[H1 H2]]]; rewrite ?H, ?H1, ?H2; simpl;
      rewrite ?orb_true_r; reflexivity. }
  rewrite Hrun. simpl. rewrite <- !app_assoc. repeat split.
Qed.

(** X11. Any other failure of opening or reading the source file leaves
    the script as an uncaught exception: nothing is printed, logged or
    sent, and the exit status is 1. *)
Theorem script_read_failure (args : Namespace) (w : World)
    (g name : string) (e : exn) :
  goal args = Some g ->
  filename args = Some name ->
  (g = "translate" -> target args <> None) ->
  files w name = inl e ->
  e <> FileNotFoundError ->
  script args w = (Raised e, w) /\
  exit_status (fst (script args w)) = 1%Z.
Proof.
  intros Hg Hname Htarget Hfile Hne.
  rewrite (script_valid_arguments args w g name Hg Hname
             (target_given g (target args) Htarget)).
  rewrite Hfile.
  destruct (issubclass e FileNotFoundError) eqn:He.
  - apply issubclass_FileNotFoundError in He. contradiction.
  - split; reflexivity.
Qed.

(** ** Every run of the script *)

(** Every run is one of the cases of [script_usage_error] and
    [script_valid_arguments]. *)
Ltac script_cases args w :=
  let g := fresh "g" in
  let name := fresh "name" in
  let Hg := fresh "Hg" in
  let Hname := fresh "Hname" in
  let Hvalid := fresh "Hvalid" in
  destruct (goal args) as [g|] eqn:Hg;
    [|rewrite (script_usage_error args w) by (now rewrite Hg)];
    [destruct (filename args) as [name|] eqn:Hname;
       [|rewrite (script_usage_error args w)
           by (rewrite Hg, Hname; reflexivity)]|];
    [destruct (goal_is (Some g) "translate" && is_None (target args))
       eqn:Hvalid;
       [rewrite (script_usage_error args w)
          by (rewrite Hg, Hname; exact Hvalid)
       |rewrite (script_valid_arguments args w g name Hg Hname Hvalid)]
    | |];
    cbv zeta;
    repeat match goal with
           | |- context [match ?x with _ => _ end] => destruct x eqn:?
           end.


(** X13. A run that logs an error logs one, prints nothing and sends
    nothing. *)
Theorem script_error_excludes_output (args : Namespace) (w : World) :
  errlog (snd (script args w)) <> errlog w ->
  (exists msg, errlog (snd (script args w)) = errlog w ++ [msg]) /\
  stdout (snd (script args w)) = stdout w /\
  sent (snd (script args w)) = sent w.
Proof.
  script_cases args w; simpl; intros H;
    solve [ now destruct H
          | split; [eexists; reflexivity|split; reflexivity] ].
Qed.

(** X14. A request is sent only when everything before it went through:
    both flags are there, the goal is one of the fixed set (with a target
    when it is [translate]), the source file was read and is not empty, and
    the credential is set. *)
Theorem script_request_only_when_ready (args : Namespace) (w : World) :
  sent (snd (script args w)) <> sent w ->
  exists g name text key,
    goal args = Some g /\
    In g goal_names /\
    (g = "translate" -> target args <> None) /\
    filename args = Some name /\
    files w name = inr text /\
    text <> "" /\
    environ w !! "OPENAI_KEY" = Some key.
Proof.
  script_cases args w;
    unfold usage_printed;
    cbn [fst snd sent write_sent write_stdout write_errlog];
    intros H; try (now destruct H).
  all: match goal with
       | Hvalid : goal_is (Some ?g) _ && is_None _ = false,
         Hget : get_prompt_by_goal _ ?g = Some _,
         Hfile : files _ ?name = inr ?text,
         Htext : (?text =? "")%string = false,
         Hkey : _ !! _ = Some ?key |- _ =>
           exists g, name, text, key;
           split; [reflexivity|];
           split; [exact (lookup_found_in_goal_names g _ Hget)|];
           split; [intros -> Htgt;
                   first [discriminate Htgt|discriminate Hvalid]|];
           split; [reflexivity|];
           split; [exact Hfile|];
           split; [now apply String.eqb_neq|reflexivity]
       end.
Qed.


(** X16. The script ends by [sys.exit(1)] in two cases only: a usage
    error, or a source file that was read and is not empty while the
    credential is not set. *)
Theorem script_exit_1_cases (args : Namespace) (w : World) :
  fst (script args w) = SystemExit 1 <->
  ((goal args = None \/ filename args = None \/
    (goal args = Some "translate" /\ target args = None)) \/
   (exists name text,
      filename args = Some name /\
      files w name = inr text /\
      text <> "" /\
      environ w !! "OPENAI_KEY" = None)).
Proof.
  split.
  - script_cases args w; cbn [fst]; intros H; try discriminate H;
      try (left; auto; fail).
    + left. right. right.
      apply andb_prop in Hvalid. destruct Hvalid as [Hgoal Htgt].
      apply String.eqb_eq in Hgoal. subst g.
      split; [reflexivity|]. now destruct (target args).
    + right.
      match goal with
      | Hfile : files _ ?name = inr ?text,
        Htext : (?text =? "")%string = false |- _ =>
          exists name, text; split; [reflexivity|];
          split; [exact Hfile|]; split; [now apply String.eqb_neq|]
      end.
      reflexivity.
  - intros [Husage|(name & text & Hname & Hfile & Htext & Hkey)].
    + rewrite script_usage_error; [reflexivity|].
      destruct Husage as [H|[H|[H1 H2]]]; rewrite ?H, ?H1, ?H2; simpl;
        rewrite ?orb_true_r; reflexivity.
    + destruct (goal args) as [g|] eqn:Hg;
        [|rewrite script_usage_error; [reflexivity|now rewrite Hg]].
      destruct (goal_is (Some g) "translate" && is_None (target args))
        eqn:Hvalid.
      * rewrite script_usage_error; [reflexivity|].
        rewrite Hg, Hvalid. apply orb_true_r.
      * rewrite (script_valid_arguments args w g name Hg Hname Hvalid).
        rewrite Hfile, Hkey. apply String.eqb_neq in Htext.
        now rewrite Htext.
Qed.

(** ** The answer, trimmed *)

Lemma append_empty_r (s : string) : s +:+ "" = s.
Proof.
  induction s as [|c s IH]; [reflexivity|].
  change (String c (s +:+ "") = String c s). now rewrite IH.
Qed.

Lemma rev_string_append (a b : string) :
  Text.rev_string (a +:+ b) = Text.rev_string b +:+ Text.rev_string a.
Proof.
  induction a as [|c a IH].
  - change ("" +:+ b) with b. simpl. now rewrite append_empty_r.
  - change (String c a +:+ b) with (String c (a +:+ b)). simpl.
    now rewrite IH, string_append_assoc.
Qed.

Lemma rev_string_involutive (s : string) :
  Text.rev_string (Text.rev_string s) = s.
Proof.
  induction s as [|c s IH]; [reflexivity|].
  simpl. now rewrite rev_string_append, IH.
Qed.

Lemma rev_string_length (s : string) :
  String.length (Text.rev_string s) = String.length s.
Proof.
  induction s as [|c s IH]; [reflexivity|].
  simpl. rewrite string_length_append, IH. simpl. lia.
Qed.

Lemma prefix_true (p s : string) :
  String.prefix p s = true <-> exists rest, s = p +:+ rest.
Proof.
  revert s. induction p as [|c p IH]; intros s.
  - split; [intros _; now exists s|now destruct s].
  - destruct s as [|d s].
    + split; [discriminate|]. intros [rest H]. discriminate H.
    + simpl. destruct (ascii_dec c d) as [->|Hne].
      * rewrite IH. split; intros [rest H]; exists rest.
        -- now rewrite H.
        -- change (String d p +:+ rest) with (String d (p +:+ rest)) in H.
           congruence.
      * split; [discriminate|]. intros [rest H].
        change (String c p +:+ rest) with (String c (p +:+ rest)) in H.
        congruence.
Qed.

Lemma substring_split (n : nat) (s : string) :
  s = String.substring 0 n s +:+ String.substring n (String.length s - n) s.
Proof.
  revert n. induction s as [|c s IH]; intros [|n]; try reflexivity.
  - simpl String.length. simpl Nat.sub.
    change (String c s =
            "" +:+ String c (String.substring 0 (String.length s) s)).
    now rewrite substring_whole.
  - change (String c s =
            String c (String.substring 0 n s
                      +:+ String.substring n (String.length s - n) s)).
    now rewrite <- IH.
Qed.

Lemma substring_length_le (n m : nat) (s : string) :
  String.length (String.substring n m s) <= m.
Proof.
  revert n m. induction s as [|c s IH]; intros [|n] [|m]; simpl; try lia.
  - specialize (IH 0 m). lia.
  - apply (IH n 0).
  - apply (IH n (S m)).
Qed.

Lemma endswith_true (s suffix : string) :
  Text.endswith s suffix = true -> exists front, s = front +:+ suffix.
Proof.
  unfold Text.endswith. intros H.
  apply andb_prop in H. destruct H as [Hlen Heq].
  apply Nat.leb_le in Hlen. apply String.eqb_eq in Heq.
  exists (String.substring 0 (String.length s - String.length suffix) s).
  pose proof (substring_split (String.length s - String.length suffix) s)
    as Hsplit.
  replace (String.length s - (String.length s - String.length suffix))
    with (String.length suffix) in Hsplit by lia.
  now rewrite Heq in Hsplit.
Qed.

Lemma whitespace_nonempty : Forall (fun ws => ws <> "") Text.whitespace.
Proof. vm_compute. repeat constructor; discriminate. Qed.

Lemma reversed_whitespace_nonempty :
  Forall (fun ws => ws <> "") (map Text.rev_string Text.whitespace).
Proof. vm_compute. repeat constructor; discriminate. Qed.

Lemma find_none_existsb {A : Type} (f : A -> bool) (l : list A) :
  find f l = None -> existsb f l = false.
Proof.
  induction l as [|x l IH]; [reflexivity|].
  simpl. destruct (f x); [discriminate|exact IH].
Qed.

Lemma existsb_false_in {A : Type} (f : A -> bool) (l : list A) (x : A) :
  existsb f l = false -> In x l -> f x = false.
Proof.
  intros H Hin. destruct (f x) eqn:Hx; [|reflexivity].
  rewrite <- H. symmetry. apply existsb_exists. now exists x.
Qed.

Lemma existsb_all_false {A : Type} (f : A -> bool) (l : list A) :
  (forall x, In x l -> f x = false) -> existsb f l = false.
Proof.
  intros H. destruct (existsb f l) eqn:E; [|reflexivity].
  apply existsb_exists in E. destruct E as (x & Hin & Hx).
  now rewrite (H x Hin) in Hx.
Qed.

(** The fuel of [lstrip_with] is enough: at the length of the text, what is
    left starts with none of the strings to strip. *)
Lemma lstrip_with_done (ws : list string) (fuel : nat) (s : string) :
  Forall (fun w => w <> "") ws ->
  String.length s <= fuel ->
  find (fun w => String.prefix w (Text.lstrip_with ws fuel s)) ws = None.
Proof.
  intros Hws. revert s. induction fuel as [|fuel IH]; intros s Hlen.
  - destruct s as [|c s]; [|simpl in Hlen; lia].
    simpl. clear Hlen. induction Hws as [|w ws Hw _ IHws]; [reflexivity|].
    simpl. destruct w; [congruence|exact IHws].
  - simpl.
    destruct (find (fun w => String.prefix w s) ws) as [w|] eqn:E;
      [|exact E].
    apply find_some in E. destruct E as [Hin _].
    apply IH. unfold Text.drop.
    pose proof (substring_length_le (String.length w)
                  (String.length s - String.length w) s) as Hle.
    rewrite List.Forall_forall in Hws. specialize (Hws w Hin).
    destruct w; [congruence|]. simpl in *. lia.
Qed.

Lemma made_of_append (parts : list string) (a b : string) :
  made_of parts a -> made_of parts b -> made_of parts (a +:+ b).
Proof.
  intros Ha Hb. induction Ha as [|part rest Hin _ IH]; [exact Hb|].
  rewrite string_append_assoc. now constructor.
Qed.

Lemma made_of_reversed (parts : list string) (s : string) :
  made_of (map Text.rev_string parts) s ->
  made_of parts (Text.rev_string s).
Proof.
  intros H. induction H as [|part rest Hin _ IH]; [constructor|].
  rewrite rev_string_append. apply made_of_append; [exact IH|].
  apply in_map_iff in Hin. destruct Hin as (p & <- & Hp).
  rewrite rev_string_involutive, <- (append_empty_r p).
  constructor; [exact Hp|constructor].
Qed.

Lemma prefix_drop (p s : string) :
  String.prefix p s = true -> s = p +:+ Text.drop (String.length p) s.
Proof.
  intros H. apply prefix_true in H. destruct H as [rest ->].
  unfold Text.drop. rewrite string_length_append.
  replace (String.length p + String.length rest - String.length p)
    with (String.length rest) by lia.
  now rewrite substring_after_prefix.
Qed.

(** What [lstrip_with] drops is made of the strings to strip. *)
Lemma lstrip_with_suffix (ws : list string) (fuel : nat) (s : string) :
  exists dropped,
    made_of ws dropped /\ s = dropped +:+ Text.lstrip_with ws fuel s.
Proof.
  revert s. induction fuel as [|fuel IH]; intros s.
  { exists "". split; [constructor|reflexivity]. }
  simpl. destruct (find (fun w => String.prefix w s) ws) as [w|] eqn:E.
  - apply find_some in E. destruct E as [Hin Hprefix].
    destruct (IH (Text.drop (String.length w) s)) as (d & Hd & Hs).
    exists (w +:+ d). split; [now constructor|].
    rewrite string_append_assoc, <- Hs. now apply prefix_drop.
  - exists "". split; [constructor|reflexivity].
Qed.

Lemma lstrip_clean (s : string) :
  starts_with_whitespace (Text.lstrip s) = false.
Proof.
  apply find_none_existsb, lstrip_with_done;
    [exact whitespace_nonempty|lia].
Qed.

Lemma rstrip_prefix (s : string) :
  exists dropped,
    made_of Text.whitespace dropped /\ s = Text.rstrip s +:+ dropped.
Proof.
  unfold Text.rstrip.
  destruct (lstrip_with_suffix (map Text.rev_string Text.whitespace)
              (String.length s) (Text.rev_string s)) as (d & Hd & Hs).
  exists (Text.rev_string d). split; [now apply made_of_reversed|].
  rewrite <- rev_string_append, <- Hs. symmetry.
  apply rev_string_involutive.
Qed.

Lemma rstrip_clean (s : string) :
  ends_with_whitespace (Text.rstrip s) = false.
Proof.
  apply existsb_all_false. intros ws Hin.
  destruct (Text.endswith (Text.rstrip s) ws) eqn:E; [|reflexivity].
  apply endswith_true in E. destruct E as [front Hfront].
  unfold Text.rstrip in Hfront.
  apply (f_equal Text.rev_string) in Hfront.
  rewrite rev_string_involutive, rev_string_append in Hfront.
  pose proof (lstrip_with_done (map Text.rev_string Text.whitespace)
                (String.length s) (Text.rev_string s)
                reversed_whitespace_nonempty) as Hdone.
  rewrite rev_string_length in Hdone. specialize (Hdone (le_n _)).
  pose proof (find_none _ _ Hdone (Text.rev_string ws)
                (in_map Text.rev_string _ ws Hin)) as Hfalse.
  cbv beta in Hfalse. rewrite <- Hfalse. symmetry.
  apply prefix_true. exists (Text.rev_string front). exact Hfront.
Qed.

(** [strip] takes blanks off both ends, and nothing else, until none is
    left at either end. *)
Lemma strip_spec (s : string) :
  exists before after,
    s = before +:+ Text.strip s +:+ after /\
    made_of Text.whitespace before /\
    made_of Text.whitespace after /\
    starts_with_whitespace (Text.strip s) = false /\
    ends_with_whitespace (Text.strip s) = false.
Proof.
  unfold Text.strip.
  destruct (lstrip_with_suffix Text.whitespace (String.length s) s)
    as (before & Hbefore & Hs).
  fold (Text.lstrip s) in Hs.
  destruct (rstrip_prefix (Text.lstrip s)) as (after & Hafter & Hl).
  exists before, after.
  split; [now rewrite <- Hl|]. split; [exact Hbefore|].
  split; [exact Hafter|]. split; [|apply rstrip_clean].
  apply existsb_all_false. intros ws Hin.
  destruct (String.prefix ws (Text.rstrip (Text.lstrip s))) eqn:E;
    [|reflexivity].
  apply prefix_true in E. destruct E as [rest Hrest].
  rewrite Hrest, string_append_assoc in Hl.
  rewrite <- (existsb_false_in _ _ ws (lstrip_clean s) Hin).
  symmetry. apply prefix_true. now exists (rest +:+ after).
Qed.

(** X17. When the endpoint answers with a text, [execute_prompt] records
    the request once and returns that text without the blanks around it:
    the answer is the text between a run of characters [str.isspace]
    accepts and another, and neither starts nor ends with one. *)
Theorem execute_prompt_answer_trimmed (self : OpenAIClient)
    (message content : string) (w : World) :
  completion w (openai_key self) message = inr (Some content) ->
  exists answer before after,
    execute_prompt self message w = (Return answer, write_sent message w) /\
    content = before +:+ answer +:+ after /\
    made_of Text.whitespace before /\
    made_of Text.whitespace after /\
    starts_with_whitespace answer = false /\
    ends_with_whitespace answer = false.
Proof.
  intros H. destruct (strip_spec content) as (before & after & Hspec).
  exists (Text.strip content), before, after.
  split; [|exact Hspec].
  unfold execute_prompt. now rewrite H.
Qed.

(** ** The request of a run that is ready *)


(** ** The further theorems at concrete inputs *)

Lemma compose_ignores_target_witness :
  exists template,
    get_prompt_by_goal PromptManager_init "summarize" = Some template /\
    compose_prompt_message {| openai_key := "sk-test" |} "summarize"
      "print(hi)" PromptManager_init (Some "Rust") bogus_world
      = (Return (Some (template +:+ "print(hi)")), bogus_world).
Proof.
  apply (compose_ignores_target {| openai_key := "sk-test" |} bogus_world
           "summarize" "print(hi)" (Some "Rust")).
  - exact in_goal_names_summarize.
  - discriminate.
Defined.

Lemma compose_known_goal_nonempty_witness :
  exists prompt,
    compose_prompt_message {| openai_key := "sk-test" |} "summarize" ""
      PromptManager_init None bogus_world
      = (Return (Some prompt), bogus_world) /\
    prompt <> "" /\
    Text.endswith prompt "" = true.
Proof.
  apply (compose_known_goal_nonempty {| openai_key := "sk-test" |}
           bogus_world "summarize" "" None).
  exact in_goal_names_summarize.
Defined.

Lemma script_sends_composed_prompt_witness :
  let run := script summarize_args answering_world in
  fst run = SystemExit 0 /\
  sent (snd run) =
    sent answering_world ++ [Prompts.summarize +:+ "print(hi)"] /\
  stdout (snd run) =
    stdout answering_world ++
    (if (Text.strip ("  It prints hi. " +:+ Text.nl) =? "")%string then []
     else [Text.strip ("  It prints hi. " +:+ Text.nl) +:+ Text.nl]) /\
  errlog (snd run) = errlog answering_world.
Proof.
  apply (script_sends_composed_prompt summarize_args answering_world
           "summarize" "foo.py" "print(hi)" "sk-test"
           (Prompts.summarize +:+ "print(hi)")
           ("  It prints hi. " +:+ Text.nl)).
  - reflexivity.
  - reflexivity.
  - discriminate.
  - reflexivity.
  - discriminate.
  - reflexivity.
  - reflexivity.
  - reflexivity.
Defined.

Lemma script_endpoint_failure_witness :
  script summarize_args failing_endpoint_world =
    (Raised OpenAIError,
     write_sent (Prompts.summarize +:+ "print(hi)") failing_endpoint_world) /\
  exit_status (fst (script summarize_args failing_endpoint_world)) = 1%Z /\
  stdout (snd (script summarize_args failing_endpoint_world))
    = stdout failing_endpoint_world /\
  errlog (snd (script summarize_args failing_endpoint_world))
    = errlog failing_endpoint_world.
Proof.
  apply (script_endpoint_failure summarize_args failing_endpoint_world
           "summarize" "foo.py" "print(hi)" "sk-test"
           (Prompts.summarize +:+ "print(hi)") OpenAIError).
  - reflexivity.
  - reflexivity.
  - discriminate.
  - reflexivity.
  - discriminate.
  - reflexivity.
  - reflexivity.
  - reflexivity.
Defined.

Lemma script_empty_source_witness :
  script bogus_args empty_file_world = (SystemExit 0, empty_file_world).
Proof.
  apply (script_empty_source bogus_args empty_file_world
           "bogus-goal" "foo.py").
  - reflexivity.
  - reflexivity.
  - discriminate.
  - reflexivity.
Defined.

Lemma script_missing_file_witness :
  script missing_file_args missing_file_world =
    (SystemExit 0,
     write_errlog ("Source filename (" +:+ "nowhere.py" +:+ ") not found.")
       missing_file_world).
Proof.
  apply (script_missing_file missing_file_args missing_file_world
           "summarize" "nowhere.py").
  - reflexivity.
  - reflexivity.
  - discriminate.
  - reflexivity.
Defined.

Lemma script_missing_credential_witness :
  script bogus_args no_key_world =
    (SystemExit 1,
     write_errlog ("OPENAI_KEY is not set" +:+ Text.nl) no_key_world).
Proof.
  apply (script_missing_credential bogus_args no_key_world
           "bogus-goal" "foo.py" "x").
  - reflexivity.
  - reflexivity.
  - discriminate.
  - reflexivity.
  - discriminate.
  - reflexivity.
Defined.

Lemma script_usage_errors_witness :
  script translate_no_target_args answering_world
    = (SystemExit 1, usage_printed answering_world) /\
  stdout (snd (script translate_no_target_args answering_world)) =
    stdout answering_world ++ [usage_line_1; usage_line_2; usage_line_3] /\
  errlog (snd (script translate_no_target_args answering_world))
    = errlog answering_world /\
  sent (snd (script translate_no_target_args answering_world))
    = sent answering_world.
Proof.
  apply (script_usage_errors translate_no_target_args answering_world).
  right. right. split; reflexivity.
Defined.

Lemma script_read_failure_witness :
  script summarize_args locked_file_world
    = (Raised PermissionError, locked_file_world) /\
  exit_status (fst (script summarize_args locked_file_world)) = 1%Z.
Proof.
  apply (script_read_failure summarize_args locked_file_world
           "summarize" "foo.py" PermissionError).
  - reflexivity.
  - reflexivity.
  - discriminate.
  - reflexivity.
  - discriminate.
Defined.

Lemma script_error_excludes_output_witness :
  (exists msg,
     errlog (snd (script missing_file_args missing_file_world))
       = errlog missing_file_world ++ [msg]) /\
  stdout (snd (script missing_file_args missing_file_world))
    = stdout missing_file_world /\
  sent (snd (script missing_file_args missing_file_world))
    = sent missing_file_world.
Proof.
  apply (script_error_excludes_output missing_file_args missing_file_world).
  vm_compute. discriminate.
Defined.

Lemma script_request_only_when_ready_witness :
  exists g name text key,
    goal translate_args = Some g /\
    In g goal_names /\
    (g = "translate" -> target translate_args <> None) /\
    filename translate_args = Some name /\
    files answering_world name = inr text /\
    text <> "" /\
    environ answering_world !! "OPENAI_KEY" = Some key.
Proof.
  apply (script_request_only_when_ready translate_args answering_world).
  vm_compute. discriminate.
Defined.

Lemma execute_prompt_answer_trimmed_witness :
  exists answer before after,
    execute_prompt {| openai_key := "sk-test" |} "hello" answering_world
      = (Return answer, write_sent "hello" answering_world) /\
    "  It prints hi. " +:+ Text.nl = before +:+ answer +:+ after /\
    made_of Text.whitespace before /\
    made_of Text.whitespace after /\
    starts_with_whitespace answer = false /\
    ends_with_whitespace answer = false.
Proof.
  apply (execute_prompt_answer_trimmed {| openai_key := "sk-test" |}
           "hello" ("  It prints hi. " +:+ Text.nl) answering_world).
  reflexivity.
Defined.

